(** * federa/group.py: the group actor of federa, as a shallow embedding

    The Flask/bloop handlers of [src/federa/group.py] are modelled as
    functions in a state-and-exception monad over the three bloop tables
    ([Group], [GroupMember], [GroupActivity]) and the logs of the external
    collaborators they call ([accept_object], [announce_object], [print]).

    Modelling conventions:
    - a decoded JSON document is the inductive [json]; a Python [dict] read
      with [.get] is an association list (keys of a decoded object are
      distinct); Python [None] is [JNull];
    - [uuid4()] draws the next value of a counter kept in the state (a
      fresh identifier per call); [str(uuid4())] is injective, so the
      string ids of [GroupActivity] are kept as the drawn numbers;
    - a bloop table is a list of items; [db.engine.save] writes the item
      under its hash key, replacing an item with the same key (a DynamoDB
      put without a condition); [db.engine.delete] removes the item with
      that key;
    - [abort(code, msg)] raises an [HTTPException]; Python exceptions keep
      the effects performed before the raise, so an error result carries
      the state reached at the raise;
    - [url_for], [json.dumps] and [json.loads] are library functions and
      stay section variables. *)

From Stdlib Require Import String Ascii List ZArith Bool Lia.
From Stdlib Require Import Permutation.
From Stdlib Require HexString.
Import ListNotations.
Open Scope string_scope.
Set Warnings "-register-all".

(** ** JSON values and Python dictionaries *)

Inductive json : Type :=
| JNull
| JBool (b : bool)
| JNum (z : Z)
| JStr (s : string)
| JArr (xs : list json)
| JObj (fs : list (string * json)).

(** Structural equality of decoded JSON values (Python [==]). *)
Fixpoint json_eqb (a b : json) {struct a} : bool :=
  match a, b with
  | JNull, JNull => true
  | JBool x, JBool y => Bool.eqb x y
  | JNum x, JNum y => Z.eqb x y
  | JStr x, JStr y => String.eqb x y
  | JArr xs, JArr ys =>
      (fix go (xs ys : list json) : bool :=
         match xs, ys with
         | [], [] => true
         | x :: xs', y :: ys' => json_eqb x y && go xs' ys'
         | _, _ => false
         end) xs ys
  | JObj xs, JObj ys =>
      (fix go (xs ys : list (string * json)) : bool :=
         match xs, ys with
         | [], [] => true
         | (k, x) :: xs', (l, y) :: ys' =>
             String.eqb k l && json_eqb x y && go xs' ys'
         | _, _ => false
         end) xs ys
  | _, _ => false
  end.

Definition dict := list (string * json).

(** [d.get(k, default)] on a dict. *)
Fixpoint dget_default (d : dict) (k : string) (default : json) : json :=
  match d with
  | [] => default
  | (k', v) :: d' => if String.eqb k k' then v else dget_default d' k default
  end.

(** [d.get(k)] on a dict: [None] when the key is absent. *)
Definition dget (d : dict) (k : string) : json := dget_default d k JNull.

(** [k in d] on a dict. *)
Definition dhas (d : dict) (k : string) : bool :=
  existsb (fun '(k', _) => String.eqb k k') d.

(** Python's [str.lower] on the ASCII range. *)
Definition ascii_lower (c : ascii) : ascii :=
  let n := nat_of_ascii c in
  if (65 <=? n)%nat && (n <=? 90)%nat then ascii_of_nat (n + 32) else c.

Fixpoint str_lower (s : string) : string :=
  match s with
  | EmptyString => EmptyString
  | String c s' => String (ascii_lower c) (str_lower s')
  end.

(** ** Exceptions and the handler monad *)

Inductive exn : Type :=
| HTTPAbort (code : Z) (msg : string)   (* flask.abort *)
| AttributeError                        (* method call on a wrong type *)
| TypeError.

Inductive result (A : Type) : Type :=
| Ok (a : A)
| Err (e : exn).
Arguments Ok {A} a.
Arguments Err {A} e.

(** ** Stored items and collaborator calls *)

Record Group := mkGroup { g_id : string; g_name : string; g_summary : string }.

Record GroupMember := mkGroupMember {
  m_id : nat;            (* uuid4() *)
  m_follower_id : json;
  m_group_id : string }.

Record GroupActivity := mkGroupActivity {
  a_id : nat;            (* str(uuid4()) *)
  a_type : string;
  a_group_id : string;
  a_object : string }.   (* json.dumps of the announced id *)

(** A Python argument passed to the announce transport: a string or a tuple. *)
Inductive pyarg : Type :=
| ArgStr (s : string)
| ArgTuple (xs : list pyarg).

(** [accept_object(group, follower, activity)] *)
Record accept_call := mkAccept {
  ac_group : string; ac_follower : json; ac_activity : dict }.

(** [announce_object(group, members, activity_id, announce_uri)] *)
Record announce_call := mkAnnounce {
  an_group : string; an_members : list json; an_object : json; an_uri : pyarg }.

Record state := mkState {
  groups : list Group;
  members : list GroupMember;
  activities : list GroupActivity;
  accepts : list accept_call;
  announces : list announce_call;
  stdout : list string;
  next_uuid : nat }.

Definition M (A : Type) : Type := state -> result A * state.

Definition ret {A} (a : A) : M A := fun s => (Ok a, s).

Definition bind {A B} (m : M A) (k : A -> M B) : M B :=
  fun s => match m s with
           | (Ok a, s') => k a s'
           | (Err e, s') => (Err e, s')
           end.

Notation "x <- m ;; k" := (bind m (fun x => k))
  (at level 61, m at next level, right associativity).

Definition raise {A} (e : exn) : M A := fun s => (Err e, s).
Definition abort {A} (code : Z) (msg : string) : M A := raise (HTTPAbort code msg).

Definition lift {A} (r : result A) : M A := fun s => (r, s).

(** ** Python built-ins used on decoded values *)

(** [v.get(k)]: only a dict has a [get] method. *)
Definition py_get (v : json) (k : string) : result json :=
  match v with
  | JObj fs => Ok (dget fs k)
  | _ => Err AttributeError
  end.

(** [v.lower()]: only a str has a [lower] method. *)
Definition py_lower (v : json) : result string :=
  match v with
  | JStr s => Ok (str_lower s)
  | _ => Err AttributeError
  end.

(** [len(v)] *)
Definition py_len (v : json) : result Z :=
  match v with
  | JStr s => Ok (Z.of_nat (String.length s))
  | JArr xs => Ok (Z.of_nat (List.length xs))
  | JObj fs => Ok (Z.of_nat (List.length fs))
  | _ => Err TypeError
  end.

(** [set(xs)]: one copy of each value (iteration order of a set is
    unspecified; the first occurrence is kept). *)
Fixpoint py_set (xs : list json) : list json :=
  match xs with
  | [] => []
  | x :: xs' => x :: filter (fun y => negb (json_eqb x y)) (py_set xs')
  end.

(** [x in s] *)
Definition py_in (x : json) (s : list json) : bool := existsb (json_eqb x) s.

(** [s.discard(x)] *)
Definition py_discard (x : json) (s : list json) : list json :=
  filter (fun y => negb (json_eqb y x)) s.

(** ** The bloop tables *)

Definition set_groups (gs : list Group) (s : state) : state :=
  mkState gs (members s) (activities s) (accepts s) (announces s) (stdout s) (next_uuid s).
Definition set_members (ms : list GroupMember) (s : state) : state :=
  mkState (groups s) ms (activities s) (accepts s) (announces s) (stdout s) (next_uuid s).
Definition set_activities (xs : list GroupActivity) (s : state) : state :=
  mkState (groups s) (members s) xs (accepts s) (announces s) (stdout s) (next_uuid s).
Definition set_accepts (xs : list accept_call) (s : state) : state :=
  mkState (groups s) (members s) (activities s) xs (announces s) (stdout s) (next_uuid s).
Definition set_announces (xs : list announce_call) (s : state) : state :=
  mkState (groups s) (members s) (activities s) (accepts s) xs (stdout s) (next_uuid s).
Definition set_stdout (xs : list string) (s : state) : state :=
  mkState (groups s) (members s) (activities s) (accepts s) (announces s) xs (next_uuid s).
Definition set_next_uuid (n : nat) (s : state) : state :=
  mkState (groups s) (members s) (activities s) (accepts s) (announces s) (stdout s) n.

(** [uuid4()] *)
Definition uuid4 : M nat :=
  fun s => (Ok (next_uuid s), set_next_uuid (S (next_uuid s)) s).

(** [print(line)] *)
Definition print (line : string) : M unit :=
  fun s => (Ok tt, set_stdout (stdout s ++ [line]) s).

(** Table [Group], hash key [id]. *)
Definition group_lookup (i : string) (gs : list Group) : option Group :=
  find (fun g => String.eqb (g_id g) i) gs.
Definition group_put (g : Group) (gs : list Group) : list Group :=
  g :: filter (fun g' => negb (String.eqb (g_id g') (g_id g))) gs.

(** Table [GroupMember], hash key [id]; index [by_group] on [group_id]
    and index [by_follower] on [follower_id]. *)
Definition member_matches (follower : json) (group_id : string) (m : GroupMember) : bool :=
  json_eqb (m_follower_id m) follower && String.eqb (m_group_id m) group_id.
Definition member_put (m : GroupMember) (ms : list GroupMember) : list GroupMember :=
  m :: filter (fun m' => negb (Nat.eqb (m_id m') (m_id m))) ms.
Definition member_remove (m : GroupMember) (ms : list GroupMember) : list GroupMember :=
  filter (fun m' => negb (Nat.eqb (m_id m') (m_id m))) ms.

(** Table [GroupActivity], hash key [id]; index [by_group] on [group_id]. *)
Definition activity_lookup (k : nat) (xs : list GroupActivity) : option GroupActivity :=
  find (fun a => Nat.eqb (a_id a) k) xs.
Definition activity_put (a : GroupActivity) (xs : list GroupActivity) : list GroupActivity :=
  a :: filter (fun a' => negb (Nat.eqb (a_id a') (a_id a))) xs.

(** [db.engine.save(...)] and [db.engine.delete(...)] per table. *)
Definition save_group (g : Group) : M unit :=
  fun s => (Ok tt, set_groups (group_put g (groups s)) s).
Definition save_member (m : GroupMember) : M unit :=
  fun s => (Ok tt, set_members (member_put m (members s)) s).
Definition delete_member (m : GroupMember) : M unit :=
  fun s => (Ok tt, set_members (member_remove m (members s)) s).
Definition save_activity (a : GroupActivity) : M unit :=
  fun s => (Ok tt, set_activities (activity_put a (activities s)) s).

(** [db.engine.query(GroupMember.by_follower, key=follower_id == follower,
    filter=group_id == group_id, projection="count").count]: the number of
    items the query matches. *)
Definition member_count (follower : json) (group_id : string) (ms : list GroupMember) : nat :=
  List.length (filter (member_matches follower group_id) ms).

(** The same query without projection, then [.first()]: [None] stands for
    the [ConstraintViolation] bloop raises when nothing matches. *)
Definition member_first (follower : json) (group_id : string) (ms : list GroupMember)
  : option GroupMember :=
  find (member_matches follower group_id) ms.

(** [group_members(group_id)] *)
Definition group_members_of (group_id : string) (ms : list GroupMember) : list json :=
  map m_follower_id (filter (fun m => String.eqb (m_group_id m) group_id) ms).

Definition group_members (group_id : string) : M (list json) :=
  fun s => (Ok (group_members_of group_id (members s)), s).

(** [find_group(group_id)] *)
Definition find_group (group_id : string) : M (option Group) :=
  fun s => (Ok (group_lookup group_id (groups s)), s).

(** ** Concrete instances used by the witnesses *)

(** [url_for] under the host [federa.example]; [str(uuid)] rendered in hex. *)
Definition ex_actor_url (i : string) : string :=
  "https://federa.example/group/actor/" ++ i.
Definition ex_announce_url (k : nat) : string :=
  "https://federa.example/group/activity/announce/" ++ HexString.of_nat k.

(** A stand-in for the json codec: strings are stored as they are. *)
Definition ex_dumps (j : json) : string :=
  match j with JStr t => t | _ => EmptyString end.
Definition ex_loads (t : string) : json := JStr t.

Definition alice : json := JStr "https://peer.example/actors/alice".
Definition bob : json := JStr "https://peer.example/actors/bob".
Definition carol : json := JStr "https://peer.example/actors/carol".

Definition book_club : Group := mkGroup "book-club" "Book Club" "reads books".

(** No member yet. *)
Definition st0 : state := mkState [book_club] [] [] [] [] [] 0.

(** Alice and Bob are members of the book club. *)
Definition st_ab : state :=
  mkState [book_club]
    [mkGroupMember 0 alice "book-club"; mkGroupMember 1 bob "book-club"]
    [] [] [] [] 2.

Definition follow_alice : dict :=
  [("type", JStr "Follow"); ("actor", alice);
   ("object", JStr (ex_actor_url "book-club"))].

Definition undo_follow_alice : dict :=
  [("type", JStr "Undo"); ("actor", alice); ("object", JObj follow_alice)].

(** An Undo with no object at all. *)
Definition undo_without_object : dict :=
  [("type", JStr "Undo"); ("actor", alice)].

Definition create_by_alice : dict :=
  [("type", JStr "Create"); ("actor", alice);
   ("object", JStr "https://peer.example/objects/42")].

(** A Create by a non-member that names no object. *)
Definition create_by_carol_no_object : dict :=
  [("type", JStr "Create"); ("actor", carol)].

Definition create_by_carol : dict :=
  [("type", JStr "Create"); ("actor", carol);
   ("object", JStr "https://peer.example/objects/43")].

Definition announce_0 : GroupActivity := mkGroupActivity 0 "Announce" "book-club" "first".

(** One announce record, id 0, already drawn. *)
Definition st_ledger : state := mkState [book_club] [] [announce_0] [] [] [] 1.

(** An earlier announce record under id 1. *)
Definition announce_1 : GroupActivity := mkGroupActivity 1 "Announce" "book-club" "earlier".

(** Alice is a member (edge id 0) and record 1 is in the ledger; the next
    draw is 2. *)
Definition st_member_ledger : state :=
  mkState [book_club] [mkGroupMember 0 alice "book-club"] [announce_1] [] [] [] 2.

(** The same, but the next [uuid4()] draw is 1: a draw equal to the id of
    a record already in the ledger (a uuid collision). *)
Definition st_collision : state :=
  mkState [book_club] [mkGroupMember 0 alice "book-club"] [announce_1] [] [] [] 1.

(** Alice alone is a member of the book club. *)
Definition st_a : state :=
  mkState [book_club] [mkGroupMember 0 alice "book-club"] [] [] [] [] 1.

(** A Follow addressed to another group's actor. *)
Definition follow_elsewhere : dict :=
  [("type", JStr "Follow"); ("actor", alice);
   ("object", JStr (ex_actor_url "chess-club"))].

(** Bob undoing Alice's Follow. *)
Definition undo_follow_by_bob : dict :=
  [("type", JStr "Undo"); ("actor", bob); ("object", JObj follow_alice)].

(** Alice undoing a Follow of another group. *)
Definition undo_follow_elsewhere : dict :=
  [("type", JStr "Undo"); ("actor", alice); ("object", JObj follow_elsewhere)].

(** ** The handlers of group.py *)

Section GroupActor.

(** [url_for(".actor", actor_id=..., _external=True)] *)
Variable actor_url : string -> string.
(** [url_for(".announce_activity", announce_id=..., _external=True)] *)
Variable announce_url : nat -> string.
(** [json.dumps] and [json.loads] *)
Variable dumps : json -> string.
Variable loads : string -> json.

(** [accept_object(group, follower, follow_activity)] *)
Definition accept_object (group : Group) (follower : json) (act : dict) : M unit :=
  fun s => (Ok tt, set_accepts (accepts s ++ [mkAccept (g_id group) follower act]) s).

(** [announce_object(group, members, activity_id, announce_uri)] *)
Definition announce_object (group : Group) (ms : list json) (activity_id : json)
    (uri : pyarg) : M unit :=
  fun s => (Ok tt, set_announces (announces s ++ [mkAnnounce (g_id group) ms activity_id uri]) s).

(** [serialize_announce(announce)] *)
Definition serialize_announce (a : GroupActivity) : json :=
  JObj [("id", JStr (announce_url (a_id a)));
        ("type", JStr (a_type a));
        ("actor", JStr (actor_url (a_group_id a)));
        ("object", loads (a_object a))].

(** A double quote character. *)
Definition dq : string := String (ascii_of_nat 34) EmptyString.

(** [follow_default(group, activity)]; the printed rendering of a
    non-string type is abbreviated to ["?"]. *)
Definition follow_default (group : Group) (act : dict) : M json :=
  let t := match dget act "type" with JStr t => t | JNull => "None" | _ => "?" end in
  _ <- print ("unknown activity " ++ dq ++ t ++ dq) ;;
  ret JNull.

(** [follow(group, follow_activity)] *)
Definition follow (group : Group) (act : dict) : M json :=
  let follower := dget act "actor" in
  let target := dget act "object" in
  if negb (json_eqb target (JStr (actor_url (g_id group))))
  then abort 400 "Wrong target"
  else fun s =>
    if (0 <? member_count follower (g_id group) (members s))%nat
    then ret (JStr "done") s
    else (u <- uuid4 ;;
          _ <- save_member (mkGroupMember u follower (g_id group)) ;;
          _ <- accept_object group follower act ;;
          ret (JStr "done")) s.

(** [undo(group, undo_activity)] *)
Definition undo (group : Group) (act : dict) : M json :=
  let follower := dget act "actor" in
  let action := dget_default act "object" (JObj []) in
  ty <- lift (py_get action "type") ;;
  lty <- lift (py_lower ty) ;;
  if negb (String.eqb lty "follow") then ret (JStr "done") else
  a <- lift (py_get action "actor") ;;
  if negb (json_eqb a follower) then abort 400 "Inconsistant follow activity" else
  target <- lift (py_get action "object") ;;
  if negb (json_eqb target (JStr (actor_url (g_id group)))) then abort 400 "Wrong target" else
  fun s =>
    match member_first follower (g_id group) (members s) with
    | None => ret (JStr "done") s
    | Some membership => (_ <- delete_member membership ;; ret (JStr "done")) s
    end.

(** [create(group, create_activity)] *)
Definition create (group : Group) (act : dict) : M json :=
  let activity_details := dget act "object" in
  match activity_details with
  | JNull => abort 400 "activity not detailed"
  | _ =>
    activity_id <- (match activity_details with
                    | JStr _ => ret activity_details
                    | _ => lift (py_get activity_details "id")
                    end) ;;
    match activity_id with
    | JNull => abort 400 "not external activity id"
    | _ =>
      let actor := dget act "actor" in
      ms <- group_members (g_id group) ;;
      let ms := py_set ms in
      if negb (py_in actor ms) then abort 401 "actor needs to be member of the group" else
      let ms := py_discard actor ms in
      announce_id <- uuid4 ;;
      (* a one-element tuple: [(url_for(...),)] *)
      let announce_uri := ArgTuple [ArgStr (announce_url announce_id)] in
      _ <- announce_object group ms activity_id announce_uri ;;
      let announce := mkGroupActivity announce_id "Announce" (g_id group) (dumps activity_id) in
      _ <- save_activity announce ;;
      ret (serialize_announce announce)
    end
  end.

(** [delete(group, follow_activity)] *)
Definition delete (group : Group) (act : dict) : M json :=
  _ <- print ("created " ++ g_id group) ;;
  ret JNull.

(** [announce_activity(announce_id)]: the record handed to
    [activityjsonify], which only wraps it into the HTTP response. *)
Definition announce_activity (announce_id : nat) : M json :=
  fun s =>
    match activity_lookup announce_id (activities s) with
    | None => abort 404 EmptyString s
    | Some announce =>
        if negb (String.eqb (a_type announce) "Announce") then abort 404 EmptyString s
        else ret (serialize_announce announce) s
    end.

(** [make_group()] past [check_logged_in]; [req] is [request.json] when it
    is a JSON object, [None] when the body is not JSON. The values are
    stored in bloop [String] columns, which reject anything but a str: the
    [find_group] key query refuses a non-str [group_name], and [save]
    refuses a non-str [name] or [summary] once the name is known to be free. *)
Definition make_group (req : option dict) : M json :=
  match req with
  | None => abort 400 "Needs group_name"
  | Some d =>
    if match d with [] => true | _ => false end || negb (dhas d "group_name")
    then abort 400 "Needs group_name" else
    let group_name := dget d "group_name" in
    let name := dget_default d "name" group_name in
    let summary := dget_default d "summary" (JStr EmptyString) in
    n1 <- lift (py_len group_name) ;;
    if (128 <? n1)%Z then abort 400 "group_name too long" else
    n2 <- lift (py_len name) ;;
    if (256 <? n2)%Z then abort 400 "group_name too long" else
    n3 <- lift (py_len summary) ;;
    if (2560 <? n3)%Z then abort 400 "summary too long" else
    match group_name with
    | JStr i =>
        found <- find_group i ;;
        match found with
        | Some _ => abort 403 EmptyString
        | None =>
            match name, summary with
            | JStr n, JStr sm => _ <- save_group (mkGroup i n sm) ;; ret (JObj [("ok", JBool true)])
            | _, _ => raise TypeError
            end
        end
    | _ => raise TypeError
    end
  end.

(** Every entry point of group.py that a request can reach. *)
Inductive call : Type :=
| CallFollow (g : Group) (act : dict)
| CallUndo (g : Group) (act : dict)
| CallCreate (g : Group) (act : dict)
| CallDelete (g : Group) (act : dict)
| CallDefault (g : Group) (act : dict)
| CallAnnounce (announce_id : nat)
| CallMakeGroup (req : option dict).

Definition run_call (c : call) : M json :=
  match c with
  | CallFollow g a => follow g a
  | CallUndo g a => undo g a
  | CallCreate g a => create g a
  | CallDelete g a => delete g a
  | CallDefault g a => follow_default g a
  | CallAnnounce k => announce_activity k
  | CallMakeGroup r => make_group r
  end.

(** The state after serving a sequence of requests, each from the state
    the previous one left (an aborted request keeps its earlier effects). *)
Fixpoint run_calls (cs : list call) (s : state) : state :=
  match cs with
  | [] => s
  | c :: cs' => run_calls cs' (snd (run_call c s))
  end.

(** ** The read-only views of group.py *)

(** [db.engine.query(GroupMember.by_group, key=group_id == ...,
    projection="count").count] *)
Definition group_member_count (group_id : string) (ms : list GroupMember) : nat :=
  List.length (filter (fun m => String.eqb (m_group_id m) group_id) ms).

(** [followers(group)] *)
Definition followers (group : Group) : M json :=
  fun s =>
    let total_items := group_member_count (g_id group) (members s) in
    (ordered_items <- (if (0 <? total_items)%nat then group_members (g_id group) else ret []) ;;
     ret (JObj [("type", JStr "OrderedCollection");
                ("totalItems", JNum (Z.of_nat total_items));
                ("orderedItems", JArr ordered_items)])) s.

(** [group_activity(group_id)]; the items come in the model's list order,
    which stands for whatever order the [by_group] query returns. *)
Definition group_activity_of (group_id : string) (xs : list GroupActivity) : list json :=
  map (fun a => loads (a_object a)) (filter (fun a => String.eqb (a_group_id a) group_id) xs).

Definition group_activity (group_id : string) : M (list json) :=
  fun s => (Ok (group_activity_of group_id (activities s)), s).

(** [group_info(group_name)]; [jsonify] only wraps the dict it is given. *)
Definition group_info (group_name : string) : M json :=
  found <- find_group group_name ;;
  match found with
  | None => abort 404 EmptyString
  | Some group =>
      ms <- group_members (g_id group) ;;
      ret (JObj [("group_name", JStr (g_id group)); ("name", JStr (g_name group));
                 ("summary", JStr (g_summary group)); ("members", JArr ms)])
  end.

(** [group_info_activity(group_name)] past [check_logged_in]. *)
Definition group_info_activity (group_name : string) : M json :=
  found <- find_group group_name ;;
  match found with
  | None => abort 404 EmptyString
  | Some group =>
      acts <- group_activity (g_id group) ;;
      ret (JObj [("group_name", JStr (g_id group)); ("name", JStr (g_name group));
                 ("summary", JStr (g_summary group)); ("activity", JArr acts)])
  end.

(** ** Invariants of the stored state *)

(** At most one edge per (follower, group) pair. *)
Definition edges_unique (ms : list GroupMember) : Prop :=
  forall f gid, (member_count f gid ms <= 1)%nat.

(** Every stored id was drawn before the counter's current value. *)
Definition ids_fresh (s : state) : Prop :=
  (forall m, In m (members s) -> (m_id m < next_uuid s)%nat) /\
  (forall a, In a (activities s) -> (a_id a < next_uuid s)%nat).

(** ** Readings of the claims' vocabulary over the model *)

(** A Follow addressed to [group]: its object is the group's actor URI. *)
Definition valid_follow (group : Group) (act : dict) : Prop :=
  dget act "object" = JStr (actor_url (g_id group)).

(** An Undo of a Follow of [group] by the Undo's own actor. *)
Definition valid_undo_follow (group : Group) (act : dict) : Prop :=
  exists action ty,
    dget_default act "object" (JObj []) = JObj action /\
    dget action "type" = JStr ty /\ str_lower ty = "follow" /\
    dget action "actor" = dget act "actor" /\
    dget action "object" = JStr (actor_url (g_id group)).

(** The identifier of the object a Create names: the object itself when it
    is a string, its non-null [id] when it is an object. *)
Definition resolved_object_id (details : json) : option json :=
  match details with
  | JStr _ => Some details
  | JObj fs => match dget fs "id" with JNull => None | v => Some v end
  | _ => None
  end.

(** ** Facts about the embedding *)

Lemma json_eqb_refl : forall a, json_eqb a a = true.
Proof.
  fix IH 1. intros [| b | z | s | xs | fs]; simpl.
  - reflexivity.
  - destruct b; reflexivity.
  - apply Z.eqb_refl.
  - apply String.eqb_refl.
  - revert xs. fix IHl 1. intros [|x xs]; [reflexivity|].
    simpl. rewrite (IH x). apply IHl.
  - revert fs. fix IHl 1. intros [|[k x] fs]; [reflexivity|].
    simpl. rewrite String.eqb_refl, (IH x). apply IHl.
Qed.

Lemma json_eqb_true : forall a b, json_eqb a b = true -> a = b.
Proof.
  fix IH 1. intros [| b | z | s | xs | fs] [| b' | z' | s' | ys | gs]; simpl;
    intro H; try discriminate.
  - reflexivity.
  - destruct b, b'; simpl in H; congruence.
  - apply Z.eqb_eq in H; subst; reflexivity.
  - apply String.eqb_eq in H; subst; reflexivity.
  - f_equal. revert xs ys H. fix IHl 1.
    intros [|x xs] [|y ys] H; simpl in H; try discriminate; [reflexivity|].
    apply andb_true_iff in H as [H1 H2].
    rewrite (IH x y H1), (IHl xs ys H2). reflexivity.
  - f_equal. revert fs gs H. fix IHl 1.
    intros [|[k x] fs] [|[l y] gs] H; simpl in H; try discriminate; [reflexivity|].
    apply andb_true_iff in H as [H H2]. apply andb_true_iff in H as [H0 H1].
    apply String.eqb_eq in H0. subst l.
    rewrite (IH x y H1), (IHl fs gs H2). reflexivity.
Qed.

Lemma json_eqb_spec : forall a b, json_eqb a b = true <-> a = b.
Proof.
  split; [apply json_eqb_true | intros <-; apply json_eqb_refl].
Qed.


Lemma member_count_filter_le : forall p f gid ms,
  (member_count f gid (filter p ms) <= member_count f gid ms)%nat.
Proof.
  intros p f gid ms. unfold member_count. induction ms as [|m ms IH]; simpl; [lia|].
  destruct (p m), (member_matches f gid m) eqn:E; simpl; rewrite ?E; simpl; lia.
Qed.

Lemma member_matches_self : forall u f gid,
  member_matches f gid (mkGroupMember u f gid) = true.
Proof.
  intros. unfold member_matches. simpl. rewrite json_eqb_refl, String.eqb_refl. reflexivity.
Qed.

Lemma member_count_put_new : forall u f gid ms,
  member_count f gid ms = 0%nat ->
  member_count f gid (member_put (mkGroupMember u f gid) ms) = 1%nat.
Proof.
  intros u f gid ms H. unfold member_put, member_count at 1. simpl.
  rewrite member_matches_self. simpl. f_equal.
  pose proof (member_count_filter_le (fun m' => negb (Nat.eqb (m_id m') u)) f gid ms) as Hf.
  unfold member_count in *. lia.
Qed.

Lemma follow_target_ok : forall group act,
  valid_follow group act ->
  json_eqb (dget act "object") (JStr (actor_url (g_id group))) = true.
Proof. intros group act H. rewrite H. apply json_eqb_refl. Qed.

(** C10: the Delete handler prints a line and returns [None]; it touches no
    table (groups, members, announce ledger), calls no collaborator and draws
    no identifier, for every group and activity. *)
Theorem delete_no_state_change : forall group act s,
  let '(r, s') := delete group act s in
  r = Ok JNull /\
  groups s' = groups s /\ members s' = members s /\
  activities s' = activities s /\ accepts s' = accepts s /\
  announces s' = announces s /\ next_uuid s' = next_uuid s.
Proof. intros. simpl. repeat split. Qed.

(** C1: two deliveries of the same valid Follow of [group] by follower F,
    from a state with at most one edge (group, F), both return "done"; the
    second changes nothing (no edge, no Accept); exactly one edge
    (group, F) remains and at most one Accept was emitted. *)
Theorem follow_idempotent : forall group act s,
  valid_follow group act ->
  (member_count (dget act "actor") (g_id group) (members s) <= 1)%nat ->
  let '(r1, s1) := follow group act s in
  let '(r2, s2) := follow group act s1 in
  r1 = Ok (JStr "done") /\ r2 = Ok (JStr "done") /\ s2 = s1 /\
  member_count (dget act "actor") (g_id group) (members s2) = 1%nat /\
  (List.length (accepts s2) <= S (List.length (accepts s)))%nat.
Proof.
  intros group act s Hv Hle.
  pose proof (follow_target_ok group act Hv) as Ht.
  set (f := dget act "actor") in *.
  unfold follow. fold f. rewrite Ht. cbv beta iota delta [negb].
  destruct (member_count f (g_id group) (members s)) as [|[|n]] eqn:Ec; [| |lia].
  - (* first delivery inserts the edge, the second sees it *)
    simpl. rewrite (member_count_put_new _ _ _ _ Ec). simpl.
    rewrite (member_count_put_new _ _ _ _ Ec), length_app. simpl.
    repeat split; lia.
  - (* already a member: both deliveries are no-ops *)
    simpl. rewrite Ec. simpl. repeat split; lia.
Qed.

Lemma not_member_no_edge : forall f gid ms,
  ~ In f (group_members_of gid ms) ->
  member_first f gid ms = None /\ member_count f gid ms = 0%nat.
Proof.
  intros f gid ms. unfold member_first, member_count, group_members_of.
  induction ms as [|m ms IH]; simpl; intro Hn; [split; reflexivity|].
  unfold member_matches at 1 3.
  destruct (String.eqb (m_group_id m) gid) eqn:Eg; simpl in Hn.
  - destruct (json_eqb (m_follower_id m) f) eqn:Ef; simpl.
    + apply json_eqb_true in Ef. exfalso. apply Hn. left. exact Ef.
    + apply IH. intro Hi. apply Hn. right. exact Hi.
  - rewrite andb_false_r. apply IH. exact Hn.
Qed.

(** A valid Undo of a Follow deletes the first edge (group, actor) the
    [by_follower] query returns, if any, and answers "done". *)
Lemma undo_valid_unfold : forall group act s,
  valid_undo_follow group act ->
  undo group act s =
  match member_first (dget act "actor") (g_id group) (members s) with
  | None => (Ok (JStr "done"), s)
  | Some m => (Ok (JStr "done"), set_members (member_remove m (members s)) s)
  end.
Proof.
  intros group act s (action & ty & H1 & H2 & H3 & H4 & H5).
  unfold undo, bind, lift. rewrite H1. cbn [py_get].
  rewrite H2. cbn [py_lower]. rewrite H3. cbn -[dget member_first member_remove].
  rewrite H4, json_eqb_refl. cbn -[dget member_first member_remove].
  rewrite H5. cbn -[dget member_first member_remove]. rewrite String.eqb_refl.
  cbn -[dget member_first member_remove].
  destruct (member_first (dget act "actor") (g_id group) (members s)); reflexivity.
Qed.

(** C6: a valid Undo(Follow(F -> group)) with no edge (group, F) answers
    "done" and leaves the whole state, membership included, unchanged. *)
Theorem undo_nothing_to_undo : forall group act s,
  valid_undo_follow group act ->
  ~ In (dget act "actor") (group_members_of (g_id group) (members s)) ->
  undo group act s = (Ok (JStr "done"), s).
Proof.
  intros group act s Hv Hn.
  rewrite (undo_valid_unfold group act s Hv).
  destruct (not_member_no_edge _ _ _ Hn) as [-> _]. reflexivity.
Qed.

Lemma filter_fresh_id : forall u ms,
  (forall m, In m ms -> (m_id m < u)%nat) ->
  filter (fun m' => negb (Nat.eqb (m_id m') u)) ms = ms.
Proof.
  intros u ms H. induction ms as [|m ms IH]; simpl; [reflexivity|].
  assert (Hm : (m_id m < u)%nat) by (apply H; left; reflexivity).
  replace (Nat.eqb (m_id m) u) with false by (symmetry; apply Nat.eqb_neq; lia).
  simpl. f_equal. apply IH. intros m' Hi. apply H. right. exact Hi.
Qed.

(** C7: from a state where F is not a member of [group] and every stored
    edge id was drawn before, a valid Follow(F -> group) and then a valid
    Undo(Follow(F -> group)) both answer "done" and give back the edge table
    of the start, so F is again absent from the group's members. *)
Theorem follow_undo_inverse : forall group fol und s,
  valid_follow group fol -> valid_undo_follow group und ->
  dget und "actor" = dget fol "actor" ->
  ~ In (dget fol "actor") (group_members_of (g_id group) (members s)) ->
  (forall m, In m (members s) -> (m_id m < next_uuid s)%nat) ->
  let '(r1, s1) := follow group fol s in
  let '(r2, s2) := undo group und s1 in
  r1 = Ok (JStr "done") /\ r2 = Ok (JStr "done") /\
  members s2 = members s /\
  ~ In (dget fol "actor") (group_members_of (g_id group) (members s2)).
Proof.
  intros group fol und s Hf Hu Ha Hn Hfresh.
  pose proof (follow_target_ok group fol Hf) as Ht.
  destruct (not_member_no_edge _ _ _ Hn) as [_ Hc].
  set (f := dget fol "actor") in *.
  unfold follow. fold f. rewrite Ht. cbv beta iota delta [negb].
  rewrite Hc. simpl.
  rewrite (undo_valid_unfold group und _ Hu), Ha. fold f. simpl.
  unfold member_first, member_put. simpl. rewrite member_matches_self.
  simpl. unfold member_remove. simpl. rewrite Nat.eqb_refl. simpl.
  rewrite !(filter_fresh_id _ _ Hfresh).
  repeat split; assumption.
Qed.

(** *** Python sets of members *)

Lemma py_in_spec : forall x l, py_in x l = true <-> In x l.
Proof.
  intros x l. unfold py_in. rewrite existsb_exists. split.
  - intros (y & Hy & E). apply json_eqb_true in E. subst. exact Hy.
  - intros Hx. exists x. split; [exact Hx | apply json_eqb_refl].
Qed.

Lemma In_py_set : forall y l, In y (py_set l) <-> In y l.
Proof.
  intros y l. induction l as [|x l IH]; simpl; [tauto|].
  rewrite filter_In, IH. split.
  - intros [H | [H _]]; [left | right]; assumption.
  - intros [H | H]; [left; exact H|].
    destruct (json_eqb x y) eqn:E.
    + left. apply json_eqb_true. exact E.
    + right. split; [exact H | reflexivity].
Qed.

Lemma In_py_discard : forall y x l, In y (py_discard x l) <-> In y l /\ y <> x.
Proof.
  intros y x l. unfold py_discard. rewrite filter_In. split.
  - intros [H E]. split; [exact H|]. intros ->. rewrite json_eqb_refl in E. discriminate.
  - intros [H Hne]. split; [exact H|].
    destruct (json_eqb y x) eqn:E; [|reflexivity].
    apply json_eqb_true in E. contradiction.
Qed.

(** *** The Create handler, case by case *)

(** The record a successful Create appends, under the drawn id [k]. *)
Definition announce_record (group : Group) (k : nat) (aid : json) : GroupActivity :=
  mkGroupActivity k "Announce" (g_id group) (dumps aid).

(** Every failure of [create] happens before its first effect; a success
    draws the next id, calls the transport once and appends one record. *)
Lemma create_cases : forall group act s,
  (exists e, create group act s = (Err e, s)) \/
  (exists aid,
     resolved_object_id (dget act "object") = Some aid /\
     py_in (dget act "actor") (py_set (group_members_of (g_id group) (members s))) = true /\
     create group act s =
       (Ok (serialize_announce (announce_record group (next_uuid s) aid)),
        mkState (groups s) (members s)
          (activity_put (announce_record group (next_uuid s) aid) (activities s))
          (accepts s)
          (announces s ++
             [mkAnnounce (g_id group)
                (py_discard (dget act "actor")
                   (py_set (group_members_of (g_id group) (members s))))
                aid (ArgTuple [ArgStr (announce_url (next_uuid s))])])
          (stdout s) (S (next_uuid s)))).
Proof.
  intros group act s. unfold create.
  destruct (dget act "object") as [| b | z | str | xs | fs] eqn:Eo;
    try (left; eexists; reflexivity).
  - (* a bare identifier *)
    cbn [bind ret]. unfold group_members at 1. cbn -[py_set py_in py_discard].
    destruct (py_in (dget act "actor") (py_set (group_members_of (g_id group) (members s)))) eqn:Em;
      cbn -[py_set py_in py_discard];
      [right; exists (JStr str); split; [reflexivity | split; [first [exact Em | reflexivity] | reflexivity]]
      | left; eexists; reflexivity].
  - (* an embedded object *)
    cbn [bind lift py_get].
    destruct (dget fs "id") as [| b | z | str | xs | fs'] eqn:Ei;
      try (left; eexists; reflexivity);
      unfold group_members at 1; cbn -[py_set py_in py_discard dget];
      match goal with
      | |- context [py_in ?a ?m] =>
          destruct (py_in a m) eqn:Em; cbn -[py_set py_in py_discard dget];
          [right; eexists; split; [cbn; rewrite Ei; reflexivity
                                  | split; [first [exact Em | reflexivity] | reflexivity]]
          | left; eexists; reflexivity]
      end.
Qed.

(** *** The ledger under the other handlers *)

(** A computation that leaves the [GroupActivity] table alone and never
    moves the id counter back. *)
Definition keeps_ledger {A} (m : M A) : Prop :=
  forall s, activities (snd (m s)) = activities s /\ (next_uuid s <= next_uuid (snd (m s)))%nat.

(** Destruct the innermost pending [match] of the goal. *)
Ltac destruct_inner_match :=
  match goal with
  | |- context [match ?x with _ => _ end] =>
      lazymatch x with
      | context [match _ with _ => _ end] => fail
      | _ => lazymatch type of x with
             | prod _ _ => fail
             | _ => destruct x
             end
      end
  end.

Ltac frame_handler :=
  intros s;
  cbv beta iota zeta delta [follow undo delete follow_default announce_activity make_group
    bind ret lift raise abort uuid4 print save_member delete_member save_group
    accept_object find_group group_members];
  repeat (destruct_inner_match; cbv beta iota);
  simpl; (split; [reflexivity | lia]).

Lemma keeps_follow : forall group act, keeps_ledger (follow group act).
Proof. intros group act. frame_handler. Qed.

Lemma keeps_undo : forall group act, keeps_ledger (undo group act).
Proof. intros group act. frame_handler. Qed.

Lemma keeps_delete : forall group act, keeps_ledger (delete group act).
Proof. intros group act. frame_handler. Qed.

Lemma keeps_follow_default : forall group act, keeps_ledger (follow_default group act).
Proof. intros group act. frame_handler. Qed.

Lemma keeps_announce_activity : forall k, keeps_ledger (announce_activity k).
Proof. intros k. frame_handler. Qed.

Lemma keeps_make_group : forall req, keeps_ledger (make_group req).
Proof. intros req. frame_handler. Qed.

Lemma activity_lookup_put_same : forall a xs,
  activity_lookup (a_id a) (activity_put a xs) = Some a.
Proof. intros a xs. unfold activity_lookup, activity_put. simpl. rewrite Nat.eqb_refl. reflexivity. Qed.

Lemma activity_lookup_put_other : forall a xs k,
  a_id a <> k -> activity_lookup k (activity_put a xs) = activity_lookup k xs.
Proof.
  intros a xs k Hne. unfold activity_lookup, activity_put. simpl.
  replace (Nat.eqb (a_id a) k) with false by (symmetry; apply Nat.eqb_neq; exact Hne).
  induction xs as [|x xs IH]; simpl; [reflexivity|].
  destruct (Nat.eqb (a_id x) (a_id a)) eqn:Ea; simpl.
  - apply Nat.eqb_eq in Ea. rewrite IH.
    replace (Nat.eqb (a_id x) k) with false
      by (symmetry; apply Nat.eqb_neq; rewrite Ea; exact Hne).
    reflexivity.
  - destruct (Nat.eqb (a_id x) k); [reflexivity | exact IH].
Qed.

(** Serving any request leaves every record drawn before it in place. *)
Lemma run_call_ledger : forall c s k,
  (k < next_uuid s)%nat ->
  activity_lookup k (activities (snd (run_call c s))) = activity_lookup k (activities s) /\
  (next_uuid s <= next_uuid (snd (run_call c s)))%nat.
Proof.
  intros c s k Hk.
  assert (Hkeep : forall A (m : M A), keeps_ledger m ->
            activity_lookup k (activities (snd (m s))) = activity_lookup k (activities s) /\
            (next_uuid s <= next_uuid (snd (m s)))%nat)
    by (intros A m Hm; destruct (Hm s) as [-> Hn]; split; [reflexivity | exact Hn]).
  destruct c as [g a | g a | g a | g a | g a | j | r]; cbn [run_call].
  - apply Hkeep, keeps_follow.
  - apply Hkeep, keeps_undo.
  - destruct (create_cases g a s) as [[e ->] | (aid & _ & _ & ->)];
      cbn [snd activities next_uuid]; [split; [reflexivity | lia]|].
    split; [|lia]. apply activity_lookup_put_other. simpl. lia.
  - apply Hkeep, keeps_delete.
  - apply Hkeep, keeps_follow_default.
  - apply Hkeep, keeps_announce_activity.
  - apply Hkeep, keeps_make_group.
Qed.

Lemma run_calls_ledger : forall cs s k,
  (k < next_uuid s)%nat ->
  activity_lookup k (activities (run_calls cs s)) = activity_lookup k (activities s).
Proof.
  induction cs as [|c cs IH]; intros s k Hk; simpl; [reflexivity|].
  destruct (run_call_ledger c s k Hk) as [E Hn].
  rewrite IH by lia. exact E.
Qed.

(** C4: the record a successful Create returns is served unchanged by the
    announce route under the id its URI names, after any later sequence of
    requests of any kind. *)
Theorem create_announce_permanent : forall group act s R s1,
  create group act s = (Ok R, s1) ->
  exists k fs,
    R = JObj fs /\
    dget fs "id" = JStr (announce_url k) /\
    dget fs "type" = JStr "Announce" /\
    dget fs "actor" = JStr (actor_url (g_id group)) /\
    forall cs, fst (announce_activity k (run_calls cs s1)) = Ok R.
Proof.
  intros group act s R s1 Hc.
  destruct (create_cases group act s) as [[e E] | (aid & _ & _ & E)];
    rewrite E in Hc; inversion Hc; subst R s1; clear Hc.
  eexists (next_uuid s), _. split; [reflexivity|]. cbn. split; [reflexivity|].
  split; [reflexivity|]. split; [reflexivity|].
  intros cs. unfold announce_activity.
  rewrite run_calls_ledger by (simpl; lia). cbn [activities].
  pose proof (activity_lookup_put_same (announce_record group (next_uuid s) aid) (activities s))
    as Hl.
  cbn [a_id announce_record] in Hl. rewrite Hl. reflexivity.
Qed.

(** C2 (as the code does it): a Create whose actor is not a member of the
    group fails before any effect, so no record is appended, the transport
    is not called and the state is unchanged. The failure is NotAMember
    (abort 401) whenever the object resolves to an id; a missing object,
    or an object without an id, is refused first (abort 400). *)
Theorem create_non_member_rejected : forall group act s,
  ~ In (dget act "actor") (group_members_of (g_id group) (members s)) ->
  exists e, create group act s = (Err e, s) /\
    (resolved_object_id (dget act "object") <> None ->
       e = HTTPAbort 401 "actor needs to be member of the group") /\
    (dget act "object" = JNull -> e = HTTPAbort 400 "activity not detailed") /\
    (forall fs, dget act "object" = JObj fs -> dget fs "id" = JNull ->
       e = HTTPAbort 400 "not external activity id").
Proof.
  intros group act s Hn.
  assert (Hpf : py_in (dget act "actor")
                  (py_set (group_members_of (g_id group) (members s))) = false).
  { destruct (py_in _ _) eqn:E; [|reflexivity].
    exfalso. apply Hn, In_py_set, py_in_spec. exact E. }
  unfold create.
  destruct (dget act "object") as [| b | z | str | xs | fs] eqn:Eo.
  all: cbn [bind lift py_get].
  all: try (destruct (dget fs "id") eqn:Ei).
  all: try unfold group_members; cbn -[py_set py_in dget group_members_of];
       try rewrite Hpf; cbn -[py_set py_in dget group_members_of].
  all: eexists; (split; [reflexivity|]).
  all: repeat split; intros; cbn -[dget] in *; try rewrite Ei in *; congruence.
Qed.

(** C3 (what the code passes): a successful Create by a member calls the
    transport exactly once, with the set of the group's members other than
    the actor, the resolved object id, and, as announce URI, the one-element
    tuple [(announce_url k,)] where [k] is the drawn record id. *)
Theorem create_announce_call : forall group act s R s1,
  create group act s = (Ok R, s1) ->
  exists aid rec,
    resolved_object_id (dget act "object") = Some aid /\
    In (dget act "actor") (group_members_of (g_id group) (members s)) /\
    announces s1 = (announces s ++ [rec])%list /\
    an_group rec = g_id group /\
    (forall x, In x (an_members rec) <->
       In x (group_members_of (g_id group) (members s)) /\ x <> dget act "actor") /\
    an_object rec = aid /\
    an_uri rec = ArgTuple [ArgStr (announce_url (next_uuid s))] /\
    R = serialize_announce (announce_record group (next_uuid s) aid).
Proof.
  intros group act s R s1 Hc.
  destruct (create_cases group act s) as [[e E] | (aid & Hr & Hm & E)];
    rewrite E in Hc; inversion Hc; subst R s1; clear Hc.
  eexists aid, _. split; [exact Hr|]. split.
  { apply In_py_set, py_in_spec. exact Hm. }
  split; [reflexivity|]. split; [reflexivity|]. split.
  - intros x. cbn [an_members]. rewrite In_py_discard, In_py_set. reflexivity.
  - repeat split.
Qed.

(** C5 (what the code does): an Undo whose object is a dict with a string
    type other than "follow" (any case) answers "done" and changes nothing;
    one whose object has no type, a missing object included (read as the
    default [{}]), raises AttributeError ([None.lower()]). *)
Theorem undo_non_follow : forall group act s action,
  dget_default act "object" (JObj []) = JObj action ->
  (forall ty, dget action "type" = JStr ty -> str_lower ty <> "follow" ->
     undo group act s = (Ok (JStr "done"), s)) /\
  (dget action "type" = JNull -> undo group act s = (Err AttributeError, s)).
Proof.
  intros group act s action Ha. split.
  - intros ty Ht Hne. unfold undo, bind, lift. rewrite Ha. cbn [py_get].
    rewrite Ht. cbn [py_lower].
    destruct (String.eqb (str_lower ty) "follow") eqn:E.
    + apply String.eqb_eq in E. contradiction.
    + reflexivity.
  - intros Ht. unfold undo, bind, lift. rewrite Ha. cbn [py_get].
    rewrite Ht. reflexivity.
Qed.

(** C8 (as the code does it): the ledger append in Create
    ([db.engine.save(announce)]) has no duplicate-id check. Create never
    fails because of the ledger: its only failures are the missing object
    (400), the missing id (400), the non-member (401) and the
    AttributeError of [.get] on an object that is not a dict. A successful
    Create writes its record under the drawn id, replacing whatever was
    stored there, and leaves every other id as it was; so, when every
    stored id was drawn before the counter, all earlier records remain. *)
Theorem ledger_save_overwrites_create_fresh : forall group act s,
  (forall e s1, create group act s = (Err e, s1) ->
     e = HTTPAbort 400 "activity not detailed" \/
     e = HTTPAbort 400 "not external activity id" \/
     e = HTTPAbort 401 "actor needs to be member of the group" \/
     e = AttributeError) /\
  (forall R s1, create group act s = (Ok R, s1) ->
     exists a, a_id a = next_uuid s /\ a_type a = "Announce" /\
       activity_lookup (next_uuid s) (activities s1) = Some a /\
       R = serialize_announce a /\
       forall k, k <> next_uuid s ->
         activity_lookup k (activities s1) = activity_lookup k (activities s)) /\
  ((forall x, In x (activities s) -> (a_id x < next_uuid s)%nat) ->
   forall k a, activity_lookup k (activities s) = Some a ->
     activity_lookup k (activities (snd (create group act s))) = Some a).
Proof.
  intros group act s. split; [|split].
  - intros e s1 H. unfold create in H.
    destruct (dget act "object") as [| b | z | str | xs | fs] eqn:Eo.
    all: cbn [bind lift py_get ret raise abort] in H.
    all: try (injection H as <- _; auto; fail).
    all: try (destruct (dget fs "id") eqn:Ei; cbn [bind lift py_get ret raise abort] in H;
              try (injection H as <- _; auto; fail)).
    all: unfold group_members in H; cbn -[py_set py_in py_discard dget group_members_of] in H.
    all: destruct (py_in _ _); cbn -[py_set py_in py_discard dget group_members_of] in H;
         [discriminate H | injection H as <- _; auto].
  - intros R s1 H.
    destruct (create_cases group act s) as [[e E] | (aid & _ & _ & E)];
      rewrite E in H; inversion H; subst R s1; clear H.
    exists (announce_record group (next_uuid s) aid).
    split; [reflexivity|]. split; [reflexivity|]. cbn [activities].
    split; [apply activity_lookup_put_same|]. split; [reflexivity|].
    intros k Hk. apply activity_lookup_put_other. exact (fun E => Hk (eq_sym E)).
  - intros Hfresh k a Hl.
    assert (Hk : (k < next_uuid s)%nat).
    { unfold activity_lookup in Hl. apply find_some in Hl as [Hin Heq].
      apply Nat.eqb_eq in Heq. subst k. apply Hfresh. exact Hin. }
    destruct (run_call_ledger (CallCreate group act) s k Hk) as [E _].
    cbn [run_call] in E. rewrite E. exact Hl.
Qed.

(** The request body of an administrative group creation. *)
Definition group_request (i n sm : string) : option dict :=
  Some [("group_name", JStr i); ("name", JStr n); ("summary", JStr sm)].

Lemma make_group_request_unfold : forall i n sm s,
  make_group (group_request i n sm) s =
  (if (128 <? Z.of_nat (String.length i))%Z then (Err (HTTPAbort 400 "group_name too long"), s) else
   if (256 <? Z.of_nat (String.length n))%Z then (Err (HTTPAbort 400 "group_name too long"), s) else
   if (2560 <? Z.of_nat (String.length sm))%Z then (Err (HTTPAbort 400 "summary too long"), s) else
   match group_lookup i (groups s) with
   | Some _ => (Err (HTTPAbort 403 EmptyString), s)
   | None => (Ok (JObj [("ok", JBool true)]), set_groups (group_put (mkGroup i n sm) (groups s)) s)
   end).
Proof.
  intros i n sm s. unfold make_group, group_request. cbn -[Z.ltb group_lookup group_put].
  destruct (128 <? _)%Z; [reflexivity|]. cbn -[Z.ltb group_lookup group_put].
  destruct (256 <? _)%Z; [reflexivity|]. cbn -[Z.ltb group_lookup group_put].
  destruct (2560 <? _)%Z; [reflexivity|]. cbn -[Z.ltb group_lookup group_put].
  destruct (group_lookup i (groups s)); reflexivity.
Qed.

(** C9: creating group (i, n, sm) fails, storing nothing, when i is already
    registered or a field is too long (i over 128, n over 256, sm over 2560
    characters); otherwise it stores the group under i and answers ok. *)
Theorem make_group_validation : forall i n sm s,
  let '(r, s') := make_group (group_request i n sm) s in
  ((128 < String.length i \/ 256 < String.length n \/ 2560 < String.length sm \/
    group_lookup i (groups s) <> None)%nat ->
     (exists e, r = Err e) /\ s' = s) /\
  ((String.length i <= 128 /\ String.length n <= 256 /\ String.length sm <= 2560 /\
    group_lookup i (groups s) = None)%nat ->
     r = Ok (JObj [("ok", JBool true)]) /\
     groups s' = group_put (mkGroup i n sm) (groups s) /\
     group_lookup i (groups s') = Some (mkGroup i n sm) /\
     members s' = members s /\ activities s' = activities s).
Proof.
  intros i n sm s. rewrite make_group_request_unfold.
  destruct (128 <? _)%Z eqn:E1; [apply Z.ltb_lt in E1 | apply Z.ltb_ge in E1];
    [split; [intros _; split; [eexists; reflexivity | reflexivity] | lia] |].
  destruct (256 <? _)%Z eqn:E2; [apply Z.ltb_lt in E2 | apply Z.ltb_ge in E2];
    [split; [intros _; split; [eexists; reflexivity | reflexivity] | lia] |].
  destruct (2560 <? _)%Z eqn:E3; [apply Z.ltb_lt in E3 | apply Z.ltb_ge in E3];
    [split; [intros _; split; [eexists; reflexivity | reflexivity] | lia] |].
  destruct (group_lookup i (groups s)) as [g|] eqn:E4.
  - split; [intros _; split; [eexists; reflexivity | reflexivity] |].
    intros (_ & _ & _ & H). discriminate H.
  - split.
    + intros [H | [H | [H | H]]]; [lia | lia | lia | contradiction].
    + intros _. cbn. rewrite String.eqb_refl. repeat split.
Qed.

(** ** Further properties of the handlers and views *)

(** *** Helper facts *)

Lemma group_lookup_id : forall i gs g, group_lookup i gs = Some g -> g_id g = i.
Proof.
  intros i gs g H. unfold group_lookup in H. apply find_some in H as [_ H].
  apply String.eqb_eq. exact H.
Qed.

Lemma group_lookup_put_other : forall g gs i,
  g_id g <> i -> group_lookup i (group_put g gs) = group_lookup i gs.
Proof.
  intros g gs i Hne. unfold group_lookup, group_put. simpl.
  replace (String.eqb (g_id g) i) with false by (symmetry; apply String.eqb_neq; exact Hne).
  induction gs as [|x gs IH]; simpl; [reflexivity|].
  destruct (String.eqb (g_id x) (g_id g)) eqn:Ex; simpl.
  - apply String.eqb_eq in Ex. rewrite IH.
    replace (String.eqb (g_id x) i) with false
      by (symmetry; apply String.eqb_neq; rewrite Ex; exact Hne).
    reflexivity.
  - destruct (String.eqb (g_id x) i); [reflexivity | exact IH].
Qed.

Lemma group_members_of_count : forall f gid ms,
  In f (group_members_of gid ms) <-> (0 < member_count f gid ms)%nat.
Proof.
  intros f gid ms. unfold group_members_of, member_count.
  induction ms as [|m ms IH]; simpl; [split; [intros [] | lia]|].
  unfold member_matches at 1.
  destruct (String.eqb (m_group_id m) gid) eqn:Eg; simpl.
  - destruct (json_eqb (m_follower_id m) f) eqn:Ef; simpl.
    + apply json_eqb_true in Ef. split; [lia | intros _; left; exact Ef].
    + rewrite <- IH. split; [|intros H; right; exact H].
      intros [E | H]; [|exact H].
      subst f. rewrite json_eqb_refl in Ef. discriminate Ef.
  - rewrite andb_false_r. exact IH.
Qed.

Lemma member_first_none_count : forall f gid ms,
  member_first f gid ms = None -> member_count f gid ms = 0%nat.
Proof.
  intros f gid ms. unfold member_first, member_count.
  induction ms as [|m ms IH]; simpl; [reflexivity|].
  destruct (member_matches f gid m); [discriminate | exact IH].
Qed.

Lemma member_count_filter_lt : forall p f gid ms m,
  In m ms -> p m = false -> member_matches f gid m = true ->
  (S (member_count f gid (filter p ms)) <= member_count f gid ms)%nat.
Proof.
  intros p f gid ms m. unfold member_count.
  induction ms as [|m0 ms IH]; simpl; [intros []|].
  intros [<- | Hin] Hp Hm.
  - rewrite Hp, Hm. simpl.
    pose proof (member_count_filter_le p f gid ms) as H. unfold member_count in H. lia.
  - specialize (IH Hin Hp Hm).
    destruct (p m0), (member_matches f gid m0) eqn:E; simpl; rewrite ?E; simpl; lia.
Qed.

Lemma member_count_put_le : forall m f gid ms,
  (member_count f gid (member_put m ms) <=
   (if member_matches f gid m then 1 else 0) + member_count f gid ms)%nat.
Proof.
  intros m f gid ms. unfold member_put, member_count. simpl.
  pose proof (member_count_filter_le (fun m' => negb (Nat.eqb (m_id m') (m_id m))) f gid ms) as H.
  unfold member_count in H. destruct (member_matches f gid m); simpl; lia.
Qed.

Lemma edges_unique_put_new : forall u f gid ms,
  edges_unique ms -> member_count f gid ms = 0%nat ->
  edges_unique (member_put (mkGroupMember u f gid) ms).
Proof.
  intros u f gid ms He H0 f' gid'.
  pose proof (member_count_put_le (mkGroupMember u f gid) f' gid' ms) as Hle.
  destruct (member_matches f' gid' (mkGroupMember u f gid)) eqn:Em.
  - unfold member_matches in Em. simpl in Em. apply andb_true_iff in Em as [E1 E2].
    apply json_eqb_true in E1. apply String.eqb_eq in E2. subst. lia.
  - specialize (He f' gid'). lia.
Qed.

Lemma edges_unique_remove : forall m ms,
  edges_unique ms -> edges_unique (member_remove m ms).
Proof.
  intros m ms He f gid. unfold member_remove.
  pose proof (member_count_filter_le (fun m' => negb (Nat.eqb (m_id m') (m_id m))) f gid ms).
  specialize (He f gid). lia.
Qed.

Lemma filter_fresh_activity_id : forall u xs,
  (forall a, In a xs -> (a_id a < u)%nat) ->
  filter (fun a' => negb (Nat.eqb (a_id a') u)) xs = xs.
Proof.
  intros u xs H. induction xs as [|a xs IH]; simpl; [reflexivity|].
  assert (Ha : (a_id a < u)%nat) by (apply H; left; reflexivity).
  replace (Nat.eqb (a_id a) u) with false by (symmetry; apply Nat.eqb_neq; lia).
  simpl. f_equal. apply IH. intros a' Hi. apply H. right. exact Hi.
Qed.

(** Destruct the innermost pending [match] of the goal, keeping its equation. *)
Ltac destruct_inner_match_eqn :=
  match goal with
  | |- context [match ?x with _ => _ end] =>
      lazymatch x with
      | context [match _ with _ => _ end] => fail
      | _ => lazymatch type of x with
             | prod _ _ => fail
             | _ => let E := fresh "E" in destruct x eqn:E
             end
      end
  end.

Ltac unfold_handler :=
  intros s;
  cbv beta iota zeta delta [follow undo delete follow_default announce_activity make_group
    bind ret lift raise abort uuid4 print save_member delete_member save_group
    accept_object find_group group_members];
  repeat (destruct_inner_match_eqn; cbv beta iota).

(** A computation that leaves the edge table and the id counter alone. *)
Definition keeps_members {A} (m : M A) : Prop :=
  forall s, members (snd (m s)) = members s /\ next_uuid (snd (m s)) = next_uuid s.

Lemma keeps_members_delete : forall group act, keeps_members (delete group act).
Proof. intros group act. unfold_handler; simpl; split; reflexivity. Qed.

Lemma keeps_members_follow_default : forall group act,
  keeps_members (follow_default group act).
Proof. intros group act. unfold_handler; simpl; split; reflexivity. Qed.

Lemma keeps_members_announce_activity : forall k, keeps_members (announce_activity k).
Proof. intros k. unfold_handler; simpl; split; reflexivity. Qed.

Lemma keeps_members_make_group : forall req, keeps_members (make_group req).
Proof. intros req. unfold_handler; simpl; split; reflexivity. Qed.

(** A Follow either changes nothing in the edge table and the counter, or
    finds no edge (group, actor) and saves one under the next id. *)
Lemma follow_members : forall group act s,
  (members (snd (follow group act s)) = members s /\
   next_uuid (snd (follow group act s)) = next_uuid s) \/
  (member_count (dget act "actor") (g_id group) (members s) = 0%nat /\
   members (snd (follow group act s)) =
     member_put (mkGroupMember (next_uuid s) (dget act "actor") (g_id group)) (members s) /\
   next_uuid (snd (follow group act s)) = S (next_uuid s)).
Proof.
  intros group act s. unfold follow. cbv zeta.
  destruct (negb _); cbv beta iota; [left; split; reflexivity|].
  destruct (0 <? member_count _ _ _)%nat eqn:E; [left; split; reflexivity|].
  right. apply Nat.ltb_ge in E. split; [lia|]. split; reflexivity.
Qed.

(** An Undo keeps the counter and at most deletes one edge. *)
Lemma undo_members : forall group act s,
  next_uuid (snd (undo group act s)) = next_uuid s /\
  (members (snd (undo group act s)) = members s \/
   exists m, members (snd (undo group act s)) = member_remove m (members s)).
Proof.
  intros group act. unfold_handler; simpl;
    first [ split; [reflexivity | left; reflexivity]
          | split; [reflexivity | right; eexists; reflexivity] ].
Qed.

(** A request changes the group table only by adding a group under a
    name not registered before. *)
Lemma make_group_groups : forall req s,
  groups (snd (make_group req s)) = groups s \/
  exists g, group_lookup (g_id g) (groups s) = None /\
            groups (snd (make_group req s)) = group_put g (groups s).
Proof.
  intros req. unfold_handler; simpl;
    first [ left; reflexivity
          | right; eexists; split; [| reflexivity]; simpl; assumption ].
Qed.

Lemma run_call_groups : forall c s,
  groups (snd (run_call c s)) = groups s \/
  exists g, group_lookup (g_id g) (groups s) = None /\
            groups (snd (run_call c s)) = group_put g (groups s).
Proof.
  intros c s. destruct c as [g a | g a | g a | g a | g a | j | r]; cbn [run_call].
  - left. unfold follow. cbv zeta. destruct (negb _); cbv beta iota; [reflexivity|].
    destruct (0 <? _)%nat; reflexivity.
  - left. revert s. unfold_handler; reflexivity.
  - left. destruct (create_cases g a s) as [[e ->] | (aid & _ & _ & ->)]; reflexivity.
  - left. reflexivity.
  - left. reflexivity.
  - left. revert s. unfold_handler; reflexivity.
  - apply make_group_groups.
Qed.

(** Serving a request only adds edges and records under the id it draws. *)
Lemma run_call_step : forall c s,
  (next_uuid s <= next_uuid (snd (run_call c s)))%nat /\
  (forall m, In m (members (snd (run_call c s))) ->
     In m (members s) \/ (m_id m = next_uuid s /\ next_uuid s < next_uuid (snd (run_call c s)))%nat) /\
  (forall a, In a (activities (snd (run_call c s))) ->
     In a (activities s) \/ (a_id a = next_uuid s /\ next_uuid s < next_uuid (snd (run_call c s)))%nat).
Proof.
  intros c s.
  assert (Hframe : forall A (m : M A), keeps_members m -> keeps_ledger m ->
    (next_uuid s <= next_uuid (snd (m s)))%nat /\
    (forall x, In x (members (snd (m s))) ->
       In x (members s) \/ (m_id x = next_uuid s /\ next_uuid s < next_uuid (snd (m s)))%nat) /\
    (forall a, In a (activities (snd (m s))) ->
       In a (activities s) \/ (a_id a = next_uuid s /\ next_uuid s < next_uuid (snd (m s)))%nat)).
  { intros A m Hm Hl. destruct (Hm s) as [Em En]. destruct (Hl s) as [El _].
    rewrite Em, En, El. split; [lia|]. split; intros x Hx; left; exact Hx. }
  destruct c as [g a | g a | g a | g a | g a | j | r]; cbn [run_call].
  - destruct (keeps_follow g a s) as [El Hn]. rewrite El.
    split; [exact Hn|]. split; [|intros x Hx; left; exact Hx].
    intros m Hm. destruct (follow_members g a s) as [[E _] | (_ & E & En)]; rewrite E in Hm.
    + left. exact Hm.
    + unfold member_put in Hm. destruct Hm as [<- | Hm].
      * right. rewrite En. simpl. split; [reflexivity | lia].
      * left. apply filter_In in Hm. apply Hm.
  - destruct (keeps_undo g a s) as [El Hn]. rewrite El.
    split; [exact Hn|]. split; [|intros x Hx; left; exact Hx].
    intros m Hm. destruct (undo_members g a s) as [_ [E | [m0 E]]]; rewrite E in Hm.
    + left. exact Hm.
    + left. unfold member_remove in Hm. apply filter_In in Hm. apply Hm.
  - destruct (create_cases g a s) as [[e ->] | (aid & _ & _ & ->)]; cbn [snd members activities next_uuid].
    + split; [lia|]. split; intros x Hx; left; exact Hx.
    + split; [lia|]. split; [intros x Hx; left; exact Hx|].
      intros x Hx. unfold activity_put in Hx. destruct Hx as [<- | Hx].
      * right. simpl. split; [reflexivity | lia].
      * left. apply filter_In in Hx. apply Hx.
  - apply Hframe; [apply keeps_members_delete | apply keeps_delete].
  - apply Hframe; [apply keeps_members_follow_default | apply keeps_follow_default].
  - apply Hframe; [apply keeps_members_announce_activity | apply keeps_announce_activity].
  - apply Hframe; [apply keeps_members_make_group | apply keeps_make_group].
Qed.

Lemma run_call_edges : forall c s,
  edges_unique (members s) -> edges_unique (members (snd (run_call c s))).
Proof.
  intros c s He. destruct c as [g a | g a | g a | g a | g a | j | r]; cbn [run_call].
  - destruct (follow_members g a s) as [[-> _] | (H0 & -> & _)]; [exact He|].
    apply edges_unique_put_new; assumption.
  - destruct (undo_members g a s) as [_ [-> | [m ->]]]; [exact He|].
    apply edges_unique_remove. exact He.
  - destruct (create_cases g a s) as [[e ->] | (aid & _ & _ & ->)]; exact He.
  - rewrite (proj1 (keeps_members_delete g a s)). exact He.
  - rewrite (proj1 (keeps_members_follow_default g a s)). exact He.
  - rewrite (proj1 (keeps_members_announce_activity j s)). exact He.
  - rewrite (proj1 (keeps_members_make_group r s)). exact He.
Qed.

(** *** The properties *)

(** No sequence of requests ever stores two edges for the same (follower,
    group) pair, when the table starts without any. *)
Theorem run_calls_edges_unique : forall cs s,
  edges_unique (members s) -> edges_unique (members (run_calls cs s)).
Proof.
  induction cs as [|c cs IH]; intros s He; simpl; [exact He|].
  apply IH, run_call_edges, He.
Qed.

(** Every edge and every announce record a sequence of requests stores has
    an id drawn before the counter's value: the ids stay fresh. *)
Theorem run_calls_ids_fresh : forall cs s,
  ids_fresh s -> ids_fresh (run_calls cs s).
Proof.
  induction cs as [|c cs IH]; intros s [Hm Ha]; simpl; [split; assumption|].
  apply IH. destruct (run_call_step c s) as (Hn & Hms & Has). split.
  - intros m Hin. destruct (Hms m Hin) as [H | [-> H]]; [|exact H].
    specialize (Hm m H). lia.
  - intros a Hin. destruct (Has a Hin) as [H | [-> H]]; [|exact H].
    specialize (Ha a H). lia.
Qed.

(** A registered group is never replaced or removed by any sequence of
    requests: [make_group] refuses an existing name with 403. *)
Theorem run_calls_keep_groups : forall cs s i g,
  group_lookup i (groups s) = Some g ->
  group_lookup i (groups (run_calls cs s)) = Some g.
Proof.
  induction cs as [|c cs IH]; intros s i g Hg; simpl; [exact Hg|].
  apply IH. destruct (run_call_groups c s) as [-> | (g' & Hn & ->)]; [exact Hg|].
  rewrite group_lookup_put_other; [exact Hg|].
  intros E. rewrite E, Hg in Hn. discriminate Hn.
Qed.

(** A valid Undo of a Follow, on an edge table with at most one edge per
    pair, answers "done" and leaves the actor out of the group's members;
    it touches no other table. *)
Theorem undo_ends_membership : forall group act s,
  valid_undo_follow group act -> edges_unique (members s) ->
  let '(r, s') := undo group act s in
  r = Ok (JStr "done") /\
  ~ In (dget act "actor") (group_members_of (g_id group) (members s')) /\
  groups s' = groups s /\ activities s' = activities s /\
  accepts s' = accepts s /\ announces s' = announces s /\ next_uuid s' = next_uuid s.
Proof.
  intros group act s Hv He.
  rewrite (undo_valid_unfold group act s Hv).
  set (f := dget act "actor").
  destruct (member_first f (g_id group) (members s)) as [m|] eqn:Ef;
    cbv beta iota; rewrite group_members_of_count.
  - unfold member_first in Ef. apply find_some in Ef as [Hin Hm].
    pose proof (member_count_filter_lt (fun m' => negb (Nat.eqb (m_id m') (m_id m)))
                  f (g_id group) (members s) m Hin) as Hlt.
    cbv beta in Hlt. rewrite Nat.eqb_refl in Hlt. specialize (Hlt eq_refl Hm).
    specialize (He f (g_id group)).
    repeat split; try reflexivity. simpl. unfold member_remove. lia.
  - apply member_first_none_count in Ef.
    repeat split; try reflexivity. lia.
Qed.

(** The followers collection counts exactly the items it lists, the
    follower of every edge of the group, and is read-only. *)
Theorem followers_collection : forall group s,
  followers group s =
  (Ok (JObj [("type", JStr "OrderedCollection");
             ("totalItems", JNum (Z.of_nat (List.length (group_members_of (g_id group) (members s)))));
             ("orderedItems", JArr (group_members_of (g_id group) (members s)))]), s).
Proof.
  intros group s.
  cbv beta iota zeta delta [followers group_member_count group_members bind ret].
  destruct (0 <? _)%nat eqn:E; cbv beta iota; unfold group_members_of; rewrite length_map;
    [reflexivity|].
  apply Nat.ltb_ge in E.
  destruct (filter (fun m => String.eqb (m_group_id m) (g_id group)) (members s)) as [|m ms];
    [reflexivity | simpl in E; lia].
Qed.

(** Both group pages are read-only; an unregistered name is answered 404;
    a registered one echoes the name with the group's fields and its
    members, or its activity. *)
Theorem group_info_views : forall name s,
  snd (group_info name s) = s /\ snd (group_info_activity name s) = s /\
  (group_lookup name (groups s) = None ->
     fst (group_info name s) = Err (HTTPAbort 404 EmptyString) /\
     fst (group_info_activity name s) = Err (HTTPAbort 404 EmptyString)) /\
  (forall g, group_lookup name (groups s) = Some g ->
     fst (group_info name s) =
       Ok (JObj [("group_name", JStr name); ("name", JStr (g_name g));
                 ("summary", JStr (g_summary g));
                 ("members", JArr (group_members_of name (members s)))]) /\
     fst (group_info_activity name s) =
       Ok (JObj [("group_name", JStr name); ("name", JStr (g_name g));
                 ("summary", JStr (g_summary g));
                 ("activity", JArr (group_activity_of name (activities s)))])).
Proof.
  intros name s. unfold group_info, group_info_activity, bind, find_group.
  destruct (group_lookup name (groups s)) as [g|] eqn:E.
  - pose proof (group_lookup_id _ _ _ E) as Hid.
    split; [reflexivity|]. split; [reflexivity|]. split; [discriminate|].
    intros g' Eg. injection Eg as <-. rewrite Hid. split; reflexivity.
  - split; [reflexivity|]. split; [reflexivity|].
    split; [split; reflexivity | discriminate].
Qed.

(** Creating a group and then reading its page returns the name, display
    name and summary given at creation. *)
Theorem make_group_then_group_info : forall i n sm s,
  (String.length i <= 128)%nat -> (String.length n <= 256)%nat ->
  (String.length sm <= 2560)%nat -> group_lookup i (groups s) = None ->
  group_info i (snd (make_group (group_request i n sm) s)) =
  (Ok (JObj [("group_name", JStr i); ("name", JStr n); ("summary", JStr sm);
             ("members", JArr (group_members_of i (members s)))]),
   snd (make_group (group_request i n sm) s)).
Proof.
  intros i n sm s H1 H2 H3 H4. rewrite make_group_request_unfold.
  replace (128 <? Z.of_nat (String.length i))%Z with false by (symmetry; apply Z.ltb_ge; lia).
  replace (256 <? Z.of_nat (String.length n))%Z with false by (symmetry; apply Z.ltb_ge; lia).
  replace (2560 <? Z.of_nat (String.length sm))%Z with false by (symmetry; apply Z.ltb_ge; lia).
  rewrite H4. unfold group_info, bind, find_group. cbn [snd groups set_groups].
  unfold group_put at 1, group_lookup at 1. cbn [find]. simpl g_id. rewrite String.eqb_refl.
  reflexivity.
Qed.

(** A creation request with only a [group_name] of at most 128 characters,
    not yet registered, stores the group with that name as display name
    and an empty summary. *)
Theorem make_group_defaults : forall i s,
  (String.length i <= 128)%nat -> group_lookup i (groups s) = None ->
  make_group (Some [("group_name", JStr i)]) s =
  (Ok (JObj [("ok", JBool true)]),
   set_groups (group_put (mkGroup i i EmptyString) (groups s)) s).
Proof.
  intros i s H1 H2. unfold make_group. cbn -[Z.ltb group_lookup group_put].
  replace (128 <? Z.of_nat (String.length i))%Z with false by (symmetry; apply Z.ltb_ge; lia).
  cbn -[Z.ltb group_lookup group_put].
  replace (256 <? Z.of_nat (String.length i))%Z with false by (symmetry; apply Z.ltb_ge; lia).
  cbn -[group_lookup group_put]. rewrite H2. reflexivity.
Qed.

(** A creation request without JSON body, with an empty object, or without
    [group_name] is refused with 400 "Needs group_name" and stores nothing. *)
Theorem make_group_needs_group_name : forall req s,
  (forall d, req = Some d -> d = [] \/ dhas d "group_name" = false) ->
  make_group req s = (Err (HTTPAbort 400 "Needs group_name"), s).
Proof.
  intros req s H. destruct req as [d|]; [|reflexivity].
  destruct (H d eq_refl) as [-> | E]; [reflexivity|].
  unfold make_group. rewrite E. destruct d; reflexivity.
Qed.

(** A Follow whose object is not the group's actor URI is refused with
    400 "Wrong target" before any effect. *)
Theorem follow_wrong_target : forall group act s,
  dget act "object" <> JStr (actor_url (g_id group)) ->
  follow group act s = (Err (HTTPAbort 400 "Wrong target"), s).
Proof.
  intros group act s Hne. unfold follow. cbv zeta.
  destruct (json_eqb (dget act "object") (JStr (actor_url (g_id group)))) eqn:E.
  - apply json_eqb_true in E. contradiction.
  - reflexivity.
Qed.

(** An Undo of a Follow whose inner actor differs from the Undo's actor is
    refused with 400 "Inconsistant follow activity"; one whose inner actor
    agrees but whose target is not the group is refused with 400 "Wrong
    target"; neither changes the state. *)
Theorem undo_rejects_mismatch : forall group act s action ty,
  dget_default act "object" (JObj []) = JObj action ->
  dget action "type" = JStr ty -> str_lower ty = "follow" ->
  (dget action "actor" <> dget act "actor" ->
     undo group act s = (Err (HTTPAbort 400 "Inconsistant follow activity"), s)) /\
  (dget action "actor" = dget act "actor" ->
   dget action "object" <> JStr (actor_url (g_id group)) ->
     undo group act s = (Err (HTTPAbort 400 "Wrong target"), s)).
Proof.
  intros group act s action ty Ha Ht Hl.
  assert (Hpre : undo group act s =
    (if negb (json_eqb (dget action "actor") (dget act "actor"))
     then abort 400 "Inconsistant follow activity"
     else target <- lift (py_get (JObj action) "object") ;;
          if negb (json_eqb target (JStr (actor_url (g_id group))))
          then abort 400 "Wrong target"
          else fun s =>
            match member_first (dget act "actor") (g_id group) (members s) with
            | None => ret (JStr "done") s
            | Some membership => (_ <- delete_member membership ;; ret (JStr "done")) s
            end) s).
  { unfold undo, bind at 1, lift at 1. rewrite Ha. cbn [py_get]. rewrite Ht.
    cbn [bind lift py_lower]. rewrite Hl. reflexivity. }
  rewrite Hpre. split.
  - intros Hne. destruct (json_eqb _ _) eqn:E.
    + apply json_eqb_true in E. contradiction.
    + reflexivity.
  - intros Heq Hne. rewrite Heq, json_eqb_refl. cbn [negb bind lift py_get].
    destruct (json_eqb (dget action "object") _) eqn:E.
    + apply json_eqb_true in E. contradiction.
    + reflexivity.
Qed.

(** A valid Follow by an actor that is not yet a member saves one edge
    under the next id, sends one Accept for the activity, makes the actor a
    member, and touches neither the groups, the ledger nor the announces. *)
Theorem follow_new_member : forall group act s,
  valid_follow group act ->
  ~ In (dget act "actor") (group_members_of (g_id group) (members s)) ->
  let '(r, s') := follow group act s in
  r = Ok (JStr "done") /\
  members s' = member_put (mkGroupMember (next_uuid s) (dget act "actor") (g_id group)) (members s) /\
  In (dget act "actor") (group_members_of (g_id group) (members s')) /\
  accepts s' = (accepts s ++ [mkAccept (g_id group) (dget act "actor") act])%list /\
  groups s' = groups s /\ activities s' = activities s /\ announces s' = announces s /\
  next_uuid s' = S (next_uuid s).
Proof.
  intros group act s Hv Hn.
  pose proof (follow_target_ok group act Hv) as Ht.
  destruct (not_member_no_edge _ _ _ Hn) as [_ Hc].
  unfold follow. cbv zeta. rewrite Ht. cbv beta iota delta [negb].
  rewrite Hc. cbn [Nat.ltb Nat.leb].
  repeat split.
  apply group_members_of_count. simpl.
  rewrite (member_count_put_new _ _ _ _ Hc). lia.
Qed.

(** The announce route never changes the state; it answers 404 for an id
    absent from the ledger and for a record that is not an Announce, and
    otherwise serves the record stored under the id. *)
Theorem announce_activity_lookup : forall k s,
  snd (announce_activity k s) = s /\
  (activity_lookup k (activities s) = None ->
     fst (announce_activity k s) = Err (HTTPAbort 404 EmptyString)) /\
  (forall a, activity_lookup k (activities s) = Some a -> a_type a <> "Announce" ->
     fst (announce_activity k s) = Err (HTTPAbort 404 EmptyString)) /\
  (forall a, activity_lookup k (activities s) = Some a -> a_type a = "Announce" ->
     a_id a = k /\ fst (announce_activity k s) = Ok (serialize_announce a)).
Proof.
  intros k s. unfold announce_activity.
  destruct (activity_lookup k (activities s)) as [a|] eqn:E.
  - assert (Hk : a_id a = k).
    { unfold activity_lookup in E. apply find_some in E as [_ H]. apply Nat.eqb_eq, H. }
    destruct (String.eqb (a_type a) "Announce") eqn:Et; cbn [negb];
      (split; [reflexivity|]); (split; [discriminate|]).
    + apply String.eqb_eq in Et. split.
      * intros a' Ea H. injection Ea as <-. contradiction.
      * intros a' Ea _. injection Ea as <-. split; [exact Hk | reflexivity].
    + apply String.eqb_neq in Et. split.
      * intros a' Ea _. injection Ea as <-. reflexivity.
      * intros a' Ea H. injection Ea as <-. contradiction.
  - split; [reflexivity|]. split; [reflexivity|].
    split; intros a' Ea; discriminate Ea.
Qed.

(** Create never touches the group table, the edge table, the Accepts or
    the printed output, whatever the request. *)
Theorem create_keeps_tables : forall group act s,
  groups (snd (create group act s)) = groups s /\
  members (snd (create group act s)) = members s /\
  accepts (snd (create group act s)) = accepts s /\
  stdout (snd (create group act s)) = stdout s.
Proof.
  intros group act s.
  destruct (create_cases group act s) as [[e ->] | (aid & _ & _ & ->)];
    repeat split.
Qed.

(** After a successful Create for a registered group, from a ledger whose
    ids were all drawn before, the group's activity page lists the decoded
    announced id together with the activity it listed before, in some
    order (the [by_group] query promises none). *)
Theorem create_then_group_info_activity : forall group act s R s1,
  group_lookup (g_id group) (groups s) = Some group ->
  (forall a, In a (activities s) -> (a_id a < next_uuid s)%nat) ->
  create group act s = (Ok R, s1) ->
  exists aid acts,
    resolved_object_id (dget act "object") = Some aid /\
    group_info_activity (g_id group) s1 =
    (Ok (JObj [("group_name", JStr (g_id group)); ("name", JStr (g_name group));
               ("summary", JStr (g_summary group)); ("activity", JArr acts)]), s1) /\
    Permutation acts (loads (dumps aid) :: group_activity_of (g_id group) (activities s)).
Proof.
  intros group act s R s1 Hg Hfresh Hc.
  destruct (create_cases group act s) as [[e E] | (aid & Hr & _ & E)];
    rewrite E in Hc; inversion Hc; subst R s1; clear Hc.
  exists aid, (loads (dumps aid) :: group_activity_of (g_id group) (activities s)).
  split; [exact Hr|]. split; [|reflexivity].
  unfold group_info_activity, bind, find_group, group_activity. cbn [groups activities].
  rewrite Hg. unfold activity_put, announce_record. cbn [a_id].
  rewrite (filter_fresh_activity_id _ _ Hfresh).
  unfold group_activity_of at 1. cbn [activities filter a_group_id].
  rewrite String.eqb_refl. reflexivity.
Qed.

End GroupActor.

(** ** Witnesses: each theorem at a concrete input *)

Lemma follow_idempotent_witness :
  valid_follow ex_actor_url book_club follow_alice /\
  (member_count alice "book-club" (members st0) <= 1)%nat /\
  let '(r1, s1) := follow ex_actor_url book_club follow_alice st0 in
  let '(r2, s2) := follow ex_actor_url book_club follow_alice s1 in
  r1 = Ok (JStr "done") /\ r2 = Ok (JStr "done") /\ s2 = s1 /\
  member_count alice "book-club" (members s2) = 1%nat /\
  (List.length (accepts s2) <= S (List.length (accepts st0)))%nat.
Proof.
  assert (H1 : valid_follow ex_actor_url book_club follow_alice) by reflexivity.
  assert (H2 : (member_count alice "book-club" (members st0) <= 1)%nat) by (vm_compute; lia).
  exact (conj H1 (conj H2 (follow_idempotent ex_actor_url book_club follow_alice st0 H1 H2))).
Defined.

Lemma create_non_member_rejected_witness :
  ~ In carol (group_members_of "book-club" (members st_ab)) /\
  exists e,
    create ex_actor_url ex_announce_url ex_dumps ex_loads book_club create_by_carol st_ab
      = (Err e, st_ab) /\
    (resolved_object_id (dget create_by_carol "object") <> None ->
       e = HTTPAbort 401 "actor needs to be member of the group") /\
    (dget create_by_carol "object" = JNull -> e = HTTPAbort 400 "activity not detailed") /\
    (forall fs, dget create_by_carol "object" = JObj fs -> dget fs "id" = JNull ->
       e = HTTPAbort 400 "not external activity id").
Proof.
  assert (H : ~ In carol (group_members_of "book-club" (members st_ab))).
  { simpl. intros [E | [E | []]]; discriminate E. }
  exact (conj H (create_non_member_rejected ex_actor_url ex_announce_url ex_dumps ex_loads
                   book_club create_by_carol st_ab H)).
Defined.

Lemma create_announce_call_witness :
  exists R s1,
    create ex_actor_url ex_announce_url ex_dumps ex_loads book_club create_by_alice st_ab
      = (Ok R, s1) /\
    exists aid rec,
      resolved_object_id (dget create_by_alice "object") = Some aid /\
      In alice (group_members_of "book-club" (members st_ab)) /\
      announces s1 = (announces st_ab ++ [rec])%list /\
      an_group rec = "book-club" /\
      (forall x, In x (an_members rec) <->
         In x (group_members_of "book-club" (members st_ab)) /\ x <> alice) /\
      an_object rec = aid /\
      an_uri rec = ArgTuple [ArgStr (ex_announce_url 2)] /\
      R = serialize_announce ex_actor_url ex_announce_url ex_loads
            (announce_record ex_dumps book_club 2 aid).
Proof.
  do 2 eexists. split; [cbv; reflexivity|].
  apply (create_announce_call ex_actor_url ex_announce_url ex_dumps ex_loads
           book_club create_by_alice st_ab).
  vm_compute. reflexivity.
Defined.

Lemma create_announce_permanent_witness :
  exists R s1,
    create ex_actor_url ex_announce_url ex_dumps ex_loads book_club create_by_alice st_ab
      = (Ok R, s1) /\
    exists k fs,
      R = JObj fs /\
      dget fs "id" = JStr (ex_announce_url k) /\
      dget fs "type" = JStr "Announce" /\
      dget fs "actor" = JStr (ex_actor_url "book-club") /\
      forall cs, fst (announce_activity ex_actor_url ex_announce_url ex_loads k
                        (run_calls ex_actor_url ex_announce_url ex_dumps ex_loads cs s1)) = Ok R.
Proof.
  do 2 eexists. split; [cbv; reflexivity|].
  apply (create_announce_permanent ex_actor_url ex_announce_url ex_dumps ex_loads
           book_club create_by_alice st_ab).
  vm_compute. reflexivity.
Defined.

(** The failing input of C5: an Undo without object raises AttributeError. *)
Lemma undo_non_follow_witness :
  undo ex_actor_url book_club undo_without_object st_ab = (Err AttributeError, st_ab).
Proof.
  apply (proj2 (undo_non_follow ex_actor_url book_club undo_without_object st_ab []
                  eq_refl)).
  reflexivity.
Defined.

Lemma undo_nothing_to_undo_witness :
  valid_undo_follow ex_actor_url book_club undo_follow_alice /\
  ~ In alice (group_members_of "book-club" (members st0)) /\
  undo ex_actor_url book_club undo_follow_alice st0 = (Ok (JStr "done"), st0).
Proof.
  assert (H1 : valid_undo_follow ex_actor_url book_club undo_follow_alice).
  { exists follow_alice, "Follow". repeat split. }
  assert (H2 : ~ In (dget undo_follow_alice "actor")
                    (group_members_of (g_id book_club) (members st0))).
  { simpl. intros []. }
  exact (conj H1 (conj H2 (undo_nothing_to_undo ex_actor_url book_club undo_follow_alice st0 H1 H2))).
Defined.

Lemma follow_undo_inverse_witness :
  let '(r1, s1) := follow ex_actor_url book_club follow_alice st0 in
  let '(r2, s2) := undo ex_actor_url book_club undo_follow_alice s1 in
  r1 = Ok (JStr "done") /\ r2 = Ok (JStr "done") /\
  members s2 = members st0 /\
  ~ In alice (group_members_of "book-club" (members s2)).
Proof.
  apply (follow_undo_inverse ex_actor_url book_club follow_alice undo_follow_alice st0).
  - reflexivity.
  - exists follow_alice, "Follow". repeat split.
  - reflexivity.
  - simpl. intros [].
  - simpl. intros m [].
Defined.

Lemma ledger_save_overwrites_create_fresh_witness :
  exists R s1,
    create ex_actor_url ex_announce_url ex_dumps ex_loads book_club create_by_alice
      st_member_ledger = (Ok R, s1) /\
    (exists a, a_id a = 2 /\ a_type a = "Announce" /\
       activity_lookup 2 (activities s1) = Some a /\
       R = serialize_announce ex_actor_url ex_announce_url ex_loads a /\
       forall k, k <> 2 ->
         activity_lookup k (activities s1) = activity_lookup k (activities st_member_ledger)) /\
    activity_lookup 1 (activities (snd (create ex_actor_url ex_announce_url ex_dumps ex_loads
                                          book_club create_by_alice st_member_ledger)))
      = Some announce_1.
Proof.
  do 2 eexists. split; [cbv; reflexivity|]. split.
  - apply (proj1 (proj2 (ledger_save_overwrites_create_fresh ex_actor_url ex_announce_url
                           ex_dumps ex_loads book_club create_by_alice st_member_ledger))).
    vm_compute. reflexivity.
  - apply (proj2 (proj2 (ledger_save_overwrites_create_fresh ex_actor_url ex_announce_url
                           ex_dumps ex_loads book_club create_by_alice st_member_ledger))).
    + simpl. intros x [<- | []]. simpl. lia.
    + reflexivity.
Defined.

Lemma make_group_validation_witness :
  let '(r, s') := make_group (group_request "book-club" "Book Club" "reads books")
                    (mkState [] [] [] [] [] [] 0) in
  r = Ok (JObj [("ok", JBool true)]) /\
  group_lookup "book-club" (groups s') = Some book_club.
Proof.
  pose proof (make_group_validation "book-club" "Book Club" "reads books"
                (mkState [] [] [] [] [] [] 0)) as H.
  destruct (make_group (group_request "book-club" "Book Club" "reads books")
              (mkState [] [] [] [] [] [] 0)) as [r s'].
  destruct H as [_ H].
  destruct H as (Hr & _ & Hl & _).
  - repeat split; cbn; (lia || reflexivity).
  - split; assumption.
Defined.

(** ** Counterexamples *)

(** C2: Carol is not a member, yet her Create without object is refused as
    a missing object (400), not as NotAMember (401). *)
Lemma create_non_member_counterexample :
  ~ In carol (group_members_of "book-club" (members st_ab)) /\
  create ex_actor_url ex_announce_url ex_dumps ex_loads book_club create_by_carol_no_object st_ab
    = (Err (HTTPAbort 400 "activity not detailed"), st_ab) /\
  HTTPAbort 400 "activity not detailed" <> HTTPAbort 401 "actor needs to be member of the group".
Proof.
  split; [simpl; intros [E | [E | []]]; discriminate E|].
  split; [reflexivity | discriminate].
Qed.

(** C8: when the id [uuid4()] draws is already in the ledger, Alice's
    Create does not fail with a duplicate id: it answers with a new
    record and the record stored under that id is replaced. *)
Lemma ledger_save_duplicate_counterexample :
  activity_lookup (next_uuid st_collision) (activities st_collision) = Some announce_1 /\
  exists R s1,
    create ex_actor_url ex_announce_url ex_dumps ex_loads book_club create_by_alice st_collision
      = (Ok R, s1) /\
    activity_lookup 1 (activities s1) =
      Some (mkGroupActivity 1 "Announce" "book-club" "https://peer.example/objects/42") /\
    activity_lookup 1 (activities s1) <> Some announce_1.
Proof.
  split; [reflexivity|].
  do 2 eexists. split; [cbv; reflexivity|].
  split; [reflexivity | discriminate].
Qed.

(** ** Witnesses of the further properties *)

Lemma run_calls_edges_unique_witness :
  edges_unique (members st0) /\
  edges_unique (members (run_calls ex_actor_url ex_announce_url ex_dumps ex_loads
    [CallFollow book_club follow_alice; CallFollow book_club follow_alice;
     CallUndo book_club undo_follow_alice; CallFollow book_club follow_alice] st0)).
Proof.
  assert (H : edges_unique (members st0)) by (intros f gid; unfold member_count; simpl; lia).
  exact (conj H (run_calls_edges_unique ex_actor_url ex_announce_url ex_dumps ex_loads _ st0 H)).
Defined.

Lemma run_calls_ids_fresh_witness :
  ids_fresh st_ab /\
  ids_fresh (run_calls ex_actor_url ex_announce_url ex_dumps ex_loads
    [CallCreate book_club create_by_alice; CallUndo book_club undo_follow_alice;
     CallFollow book_club follow_alice] st_ab).
Proof.
  assert (H : ids_fresh st_ab).
  { split; simpl; intros x Hx; repeat destruct Hx as [<- | Hx]; simpl; (lia || contradiction). }
  exact (conj H (run_calls_ids_fresh ex_actor_url ex_announce_url ex_dumps ex_loads _ st_ab H)).
Defined.

Lemma run_calls_keep_groups_witness :
  group_lookup "book-club" (groups st_ab) = Some book_club /\
  group_lookup "book-club"
    (groups (run_calls ex_actor_url ex_announce_url ex_dumps ex_loads
       [CallMakeGroup (group_request "book-club" "Impostors" "takes over");
        CallFollow book_club follow_alice] st_ab)) = Some book_club.
Proof.
  assert (H : group_lookup "book-club" (groups st_ab) = Some book_club) by reflexivity.
  exact (conj H (run_calls_keep_groups ex_actor_url ex_announce_url ex_dumps ex_loads
                   _ st_ab "book-club" book_club H)).
Defined.

Lemma undo_ends_membership_witness :
  valid_undo_follow ex_actor_url book_club undo_follow_alice /\
  edges_unique (members st_a) /\
  let '(r, s') := undo ex_actor_url book_club undo_follow_alice st_a in
  r = Ok (JStr "done") /\
  ~ In alice (group_members_of "book-club" (members s')) /\
  groups s' = groups st_a /\ activities s' = activities st_a /\
  accepts s' = accepts st_a /\ announces s' = announces st_a /\ next_uuid s' = next_uuid st_a.
Proof.
  assert (H1 : valid_undo_follow ex_actor_url book_club undo_follow_alice).
  { exists follow_alice, "Follow". repeat split. }
  assert (H2 : edges_unique (members st_a)).
  { intros f gid. unfold member_count. cbn [filter members st_a].
    destruct (member_matches _ _ _); simpl; lia. }
  exact (conj H1 (conj H2 (undo_ends_membership ex_actor_url book_club undo_follow_alice st_a H1 H2))).
Defined.

Lemma group_info_views_witness :
  group_lookup "chess-club" (groups st_ab) = None /\
  fst (group_info "chess-club" st_ab) = Err (HTTPAbort 404 EmptyString) /\
  fst (group_info_activity ex_loads "chess-club" st_ab) = Err (HTTPAbort 404 EmptyString) /\
  group_lookup "book-club" (groups st_ab) = Some book_club /\
  fst (group_info "book-club" st_ab) =
    Ok (JObj [("group_name", JStr "book-club"); ("name", JStr (g_name book_club));
              ("summary", JStr (g_summary book_club));
              ("members", JArr (group_members_of "book-club" (members st_ab)))]).
Proof.
  assert (H1 : group_lookup "chess-club" (groups st_ab) = None) by reflexivity.
  assert (H2 : group_lookup "book-club" (groups st_ab) = Some book_club) by reflexivity.
  pose proof (group_info_views ex_loads "chess-club" st_ab) as (_ & _ & Hn & _).
  pose proof (group_info_views ex_loads "book-club" st_ab) as (_ & _ & _ & Hs).
  destruct (Hn H1) as [E1 E2]. destruct (Hs book_club H2) as [E3 _].
  exact (conj H1 (conj E1 (conj E2 (conj H2 E3)))).
Defined.

Lemma make_group_then_group_info_witness :
  group_info "chess-club" (snd (make_group (group_request "chess-club" "Chess Club" "plays chess") st_ab)) =
  (Ok (JObj [("group_name", JStr "chess-club"); ("name", JStr "Chess Club");
             ("summary", JStr "plays chess");
             ("members", JArr (group_members_of "chess-club" (members st_ab)))]),
   snd (make_group (group_request "chess-club" "Chess Club" "plays chess") st_ab)).
Proof.
  apply make_group_then_group_info; [simpl; lia | simpl; lia | simpl; lia | reflexivity].
Defined.

Lemma make_group_defaults_witness :
  make_group (Some [("group_name", JStr "chess-club")]) st_ab =
  (Ok (JObj [("ok", JBool true)]),
   set_groups (group_put (mkGroup "chess-club" "chess-club" EmptyString) (groups st_ab)) st_ab).
Proof.
  apply make_group_defaults; [simpl; lia | reflexivity].
Defined.

Lemma make_group_needs_group_name_witness :
  make_group (Some [("name", JStr "Chess Club")]) st_ab
  = (Err (HTTPAbort 400 "Needs group_name"), st_ab).
Proof.
  apply make_group_needs_group_name. intros d E. injection E as <-. right. reflexivity.
Defined.

Lemma follow_wrong_target_witness :
  follow ex_actor_url book_club follow_elsewhere st_ab
  = (Err (HTTPAbort 400 "Wrong target"), st_ab).
Proof.
  apply follow_wrong_target. cbv. intros H. discriminate H.
Defined.

Lemma undo_rejects_mismatch_witness :
  undo ex_actor_url book_club undo_follow_by_bob st_ab
    = (Err (HTTPAbort 400 "Inconsistant follow activity"), st_ab) /\
  undo ex_actor_url book_club undo_follow_elsewhere st_ab
    = (Err (HTTPAbort 400 "Wrong target"), st_ab).
Proof.
  split.
  - apply (proj1 (undo_rejects_mismatch ex_actor_url book_club undo_follow_by_bob st_ab
                    follow_alice "Follow" eq_refl eq_refl eq_refl)).
    cbv. intros H. discriminate H.
  - apply (proj2 (undo_rejects_mismatch ex_actor_url book_club undo_follow_elsewhere st_ab
                    follow_elsewhere "Follow" eq_refl eq_refl eq_refl)).
    + reflexivity.
    + cbv. intros H. discriminate H.
Defined.

Lemma follow_new_member_witness :
  let '(r, s') := follow ex_actor_url book_club follow_alice st0 in
  r = Ok (JStr "done") /\
  members s' = member_put (mkGroupMember 0 alice "book-club") (members st0) /\
  In alice (group_members_of "book-club" (members s')) /\
  accepts s' = (accepts st0 ++ [mkAccept "book-club" alice follow_alice])%list /\
  groups s' = groups st0 /\ activities s' = activities st0 /\ announces s' = announces st0 /\
  next_uuid s' = S (next_uuid st0).
Proof.
  apply (follow_new_member ex_actor_url book_club follow_alice st0).
  - reflexivity.
  - simpl. intros [].
Defined.

Lemma announce_activity_lookup_witness :
  fst (announce_activity ex_actor_url ex_announce_url ex_loads 1 st_ledger)
    = Err (HTTPAbort 404 EmptyString) /\
  fst (announce_activity ex_actor_url ex_announce_url ex_loads 0 st_ledger)
    = Ok (serialize_announce ex_actor_url ex_announce_url ex_loads announce_0).
Proof.
  split.
  - apply (proj1 (proj2 (announce_activity_lookup ex_actor_url ex_announce_url ex_loads 1 st_ledger))).
    reflexivity.
  - apply (proj2 (proj2 (proj2 (proj2
             (announce_activity_lookup ex_actor_url ex_announce_url ex_loads 0 st_ledger)))
             announce_0 eq_refl eq_refl)).
Defined.

Lemma create_then_group_info_activity_witness :
  exists R s1,
    create ex_actor_url ex_announce_url ex_dumps ex_loads book_club create_by_alice
      st_member_ledger = (Ok R, s1) /\
    exists aid acts,
      resolved_object_id (dget create_by_alice "object") = Some aid /\
      group_info_activity ex_loads (g_id book_club) s1 =
      (Ok (JObj [("group_name", JStr (g_id book_club)); ("name", JStr (g_name book_club));
                 ("summary", JStr (g_summary book_club)); ("activity", JArr acts)]), s1) /\
      Permutation acts (ex_loads (ex_dumps aid) ::
                        group_activity_of ex_loads (g_id book_club) (activities st_member_ledger)).
Proof.
  do 2 eexists. split; [cbv; reflexivity|].
  eapply (create_then_group_info_activity ex_actor_url ex_announce_url ex_dumps ex_loads
            book_club create_by_alice st_member_ledger).
  - reflexivity.
  - simpl. intros a [<- | []]. simpl. lia.
  - vm_compute. reflexivity.
Defined.
